(** * backend/api: the welcome-message endpoint

    A shallow embedding of [backend/api/views.py] and [backend/api/urls.py]
    together with the parts of Django and Django REST framework that the two
    files call: [django.urls.path] and the URL resolver, the
    [rest_framework.decorators.api_view] decorator with the request cycle of
    [APIView] ([initial], handler selection, exception handling,
    [finalize_response]), [rest_framework.response.Response] and its JSON
    rendering.

    What the project configures outside the two files is a parameter of the
    model ([Site]): the outcome of content negotiation, the authentication,
    permission and throttling checks, and the pages Django serves on its own.
    The middleware chain is not part of the model. *)

From Stdlib Require Import String Ascii List ZArith NArith Bool Lia.
Import ListNotations.
Local Open Scope string_scope.
Local Open Scope Z_scope.

(** ** Python strings

    A Python [str] is represented by its UTF-8 bytes. *)

Module pystr.

(** [chr(34)], the double quote. *)
Definition dquote : ascii := "034"%char.
(** [chr(92)], the backslash. *)
Definition backslash : ascii := "092"%char.
(** [chr(10)], the line feed. *)
Definition newline : ascii := "010"%char.

(** [str.lower] on one character (ASCII letters). *)
Definition lower_char (c : ascii) : ascii :=
  let n := nat_of_ascii c in
  if andb (Nat.leb 65 n) (Nat.leb n 90) then ascii_of_nat (n + 32) else c.

(** [str.lower]. *)
Fixpoint lower (s : string) : string :=
  match s with
  | EmptyString => EmptyString
  | String c s' => String (lower_char c) (lower s')
  end.

(** [sep.join(parts)]. *)
Fixpoint join (sep : string) (parts : list string) : string :=
  match parts with
  | [] => ""
  | [p] => p
  | p :: rest => p ++ sep ++ join sep rest
  end.

(** [x in names] for a list of strings. *)
Definition mem (x : string) (names : list string) : bool :=
  existsb (String.eqb x) names.

(** [s.startswith(p)], returning the remainder [s[len(p):]] on success. *)
Fixpoint strip_prefix (p s : string) : option string :=
  match p, s with
  | EmptyString, _ => Some s
  | String a p', String b s' =>
      if Ascii.eqb a b then strip_prefix p' s' else None
  | String _ _, EmptyString => None
  end.

(** [' ' * n]. *)
Fixpoint spaces (n : nat) : string :=
  match n with
  | O => ""
  | S n' => String " " (spaces n')
  end.

(** The ASCII characters [str.strip] removes: tab to carriage return, the
    four separators 28 to 31 and the space. *)
Definition is_space (c : ascii) : bool :=
  let n := nat_of_ascii c in
  orb (andb (Nat.leb 9 n) (Nat.leb n 13))
      (orb (andb (Nat.leb 28 n) (Nat.leb n 31)) (Nat.eqb n 32)).

(** [s.lstrip()]. *)
Fixpoint lstrip (s : string) : string :=
  match s with
  | String c s' => if is_space c then lstrip s' else s
  | EmptyString => s
  end.

(** [s.rstrip()]. *)
Fixpoint rstrip (s : string) : string :=
  match s with
  | EmptyString => ""
  | String c s' =>
      match rstrip s' with
      | EmptyString => if is_space c then "" else String c ""
      | t => String c t
      end
  end.

(** [s.strip()]. *)
Definition strip (s : string) : string := rstrip (lstrip s).

(** [s.partition(sep)] for a one-character separator: the text before the
    first [sep] and, when there is one, the text after it. *)
Fixpoint partition (sep : ascii) (s : string) : string * option string :=
  match s with
  | EmptyString => ("", None)
  | String c s' =>
      if Ascii.eqb c sep then ("", Some s')
      else let '(before, after) := partition sep s' in (String c before, after)
  end.

(** [s.split(sep)] for a one-character separator. *)
Fixpoint split (sep : ascii) (s : string) : list string :=
  match s with
  | EmptyString => [""]
  | String c s' =>
      if Ascii.eqb c sep then "" :: split sep s'
      else
        match split sep s' with
        | part :: parts => String c part :: parts
        | [] => [String c ""]
        end
  end.

(** [d[key] = value] on a dict kept as the list of its items in insertion
    order: an existing key keeps its place and takes the new value. *)
Fixpoint dict_set {A} (d : list (string * A)) (key : string) (value : A)
  : list (string * A) :=
  match d with
  | [] => [(key, value)]
  | (k, x) :: d' =>
      if String.eqb k key then (k, value) :: d' else (k, x) :: dict_set d' key value
  end.

(** [dict(pairs)]: later pairs overwrite earlier ones with the same key. *)
Definition dict_of_pairs {A} (pairs : list (string * A)) : list (string * A) :=
  fold_left (fun d kv => dict_set d (fst kv) (snd kv)) pairs [].

(** [d.get(key)]. *)
Fixpoint dict_get {A} (d : list (string * A)) (key : string) : option A :=
  match d with
  | [] => None
  | (k, x) :: d' => if String.eqb k key then Some x else dict_get d' key
  end.

End pystr.

(** ** Python values that occur in response data

    A dict is the list of its items in insertion order. *)

#[warnings="-register-all"] Inductive pyval : Type :=
| PyStr (s : string)
| PyList (xs : list pyval)
| PyDict (items : list (string * pyval)).

(** ** JSON text, for strings, lists and dicts *)

Module json.
Import pystr.

Definition hex_digit (n : nat) : ascii :=
  if Nat.ltb n 10 then ascii_of_nat (48 + n) else ascii_of_nat (87 + n).

(** One character of [py_encode_basestring] ([ensure_ascii=False]): the
    quote, the backslash and the control characters are escaped, everything
    else is copied. *)
Definition escape_char (c : ascii) : string :=
  let n := nat_of_ascii c in
  if Ascii.eqb c dquote then String backslash (String dquote "")
  else if Ascii.eqb c backslash then String backslash (String backslash "")
  else if Nat.eqb n 10 then String backslash "n"
  else if Nat.eqb n 13 then String backslash "r"
  else if Nat.eqb n 9 then String backslash "t"
  else if Nat.eqb n 8 then String backslash "b"
  else if Nat.eqb n 12 then String backslash "f"
  else if Nat.ltb n 32 then
    String backslash
      (String "u" (String "0" (String "0"
         (String (hex_digit (Nat.div n 16)) (String (hex_digit (Nat.modulo n 16)) "")))))
  else String c "".

Fixpoint escape (s : string) : string :=
  match s with
  | EmptyString => ""
  | String c s' => escape_char c ++ escape s'
  end.

Definition encode_str (s : string) : string :=
  String dquote (escape s ++ String dquote "").

(** ['\n' + ' ' * (indent * level)], the line break of the indented form. *)
Definition newline_indent (indent level : nat) : string :=
  String newline (spaces (indent * level)).

(** [json.dumps(v, indent=indent, separators=(item_separator,
    key_separator))] at nesting depth [level].  Without [indent] the items
    follow each other directly; with it every item of a non-empty list or
    dict starts on a line of its own, indented by its depth.  Empty
    containers are written [[]] and [{}] in both forms. *)
Fixpoint encode (indent : option nat) (item_separator key_separator : string)
    (level : nat) (v : pyval) : string :=
  match v with
  | PyStr s => encode_str s
  | PyList [] => "[]"
  | PyList xs =>
      match indent with
      | None =>
          "[" ++ join item_separator
                   (map (encode indent item_separator key_separator level) xs)
              ++ "]"
      | Some n =>
          "[" ++ newline_indent n (S level)
              ++ join (item_separator ++ newline_indent n (S level))
                   (map (encode indent item_separator key_separator (S level)) xs)
              ++ newline_indent n level ++ "]"
      end
  | PyDict [] => "{}"
  | PyDict items =>
      match indent with
      | None =>
          "{" ++ join item_separator
                   (map (fun kv =>
                           match kv with
                           | (k, x) =>
                               encode_str k ++ key_separator
                                 ++ encode indent item_separator key_separator level x
                           end) items)
              ++ "}"
      | Some n =>
          "{" ++ newline_indent n (S level)
              ++ join (item_separator ++ newline_indent n (S level))
                   (map (fun kv =>
                           match kv with
                           | (k, x) =>
                               encode_str k ++ key_separator
                                 ++ encode indent item_separator key_separator
                                      (S level) x
                           end) items)
              ++ newline_indent n level ++ "}"
      end
  end.

Definition dumps (v : pyval) (indent : option nat)
    (separators : string * string) : string :=
  encode indent (fst separators) (snd separators) 0 v.

(** *** Decoding *)

Definition is_ws (c : ascii) : bool :=
  let n := nat_of_ascii c in
  orb (orb (Nat.eqb n 32) (Nat.eqb n 9)) (orb (Nat.eqb n 10) (Nat.eqb n 13)).

Fixpoint skip_ws (s : string) : string :=
  match s with
  | String c s' => if is_ws c then skip_ws s' else s
  | EmptyString => s
  end.

Definition hex_value (c : ascii) : option N :=
  let n := N_of_ascii c in
  if andb (N.leb 48 n) (N.leb n 57) then Some (n - 48)%N
  else if andb (N.leb 97 n) (N.leb n 102) then Some (n - 87)%N
  else if andb (N.leb 65 n) (N.leb n 70) then Some (n - 55)%N
  else None.

(** The code point written by four hexadecimal digits. *)
Definition hex4 (h1 h2 h3 h4 : ascii) : option N :=
  match hex_value h1, hex_value h2, hex_value h3, hex_value h4 with
  | Some a, Some b, Some c, Some d => Some (4096 * a + 256 * b + 16 * c + d)%N
  | _, _, _, _ => None
  end.

(** The UTF-8 bytes of a code point. *)
Definition utf8 (cp : N) : string :=
  let byte (n : N) := ascii_of_N n in
  let cont (n : N) := byte (128 + n mod 64)%N in
  if (cp <? 128)%N then String (byte cp) ""
  else if (cp <? 2048)%N then String (byte (192 + cp / 64)%N) (String (cont cp) "")
  else if (cp <? 65536)%N then
    String (byte (224 + cp / 4096)%N)
      (String (cont (cp / 64)%N) (String (cont cp) ""))
  else
    String (byte (240 + cp / 262144)%N)
      (String (cont (cp / 4096)%N) (String (cont (cp / 64)%N) (String (cont cp) ""))).

Definition is_high_surrogate (cp : N) : bool :=
  andb (N.leb 55296 cp) (N.leb cp 56319).

Definition is_low_surrogate (cp : N) : bool :=
  andb (N.leb 56320 cp) (N.leb cp 57343).

(** The body of a string literal, after its opening quote: the decoded text
    and the input that follows the closing quote.  A [\uXXXX] escape gives
    the UTF-8 bytes of its code point, a surrogate pair those of the
    character it stands for; a surrogate without its partner has no UTF-8
    form and is refused.  A raw control character is refused. *)
Fixpoint scan_string (s : string) : option (string * string) :=
  match s with
  | EmptyString => None
  | String c s' =>
      if Ascii.eqb c dquote then Some ("", s')
      else if Ascii.eqb c backslash then
        match s' with
        | String e s'' =>
            let plain (d : ascii) :=
              match scan_string s'' with
              | Some (t, rest) => Some (String d t, rest)
              | None => None
              end in
            if Ascii.eqb e dquote then plain dquote
            else if Ascii.eqb e backslash then plain backslash
            else if Ascii.eqb e "/" then plain "/"%char
            else if Ascii.eqb e "n" then plain (ascii_of_nat 10)
            else if Ascii.eqb e "r" then plain (ascii_of_nat 13)
            else if Ascii.eqb e "t" then plain (ascii_of_nat 9)
            else if Ascii.eqb e "b" then plain (ascii_of_nat 8)
            else if Ascii.eqb e "f" then plain (ascii_of_nat 12)
            else if Ascii.eqb e "u" then
              match s'' with
              | String h1 (String h2 (String h3 (String h4 s3))) =>
                  match hex4 h1 h2 h3 h4 with
                  | Some cp =>
                      if is_high_surrogate cp then
                        match s3 with
                        | String b (String u (String l1 (String l2 (String l3
                            (String l4 s4))))) =>
                            if andb (Ascii.eqb b backslash) (Ascii.eqb u "u") then
                              match hex4 l1 l2 l3 l4 with
                              | Some lo =>
                                  if is_low_surrogate lo then
                                    match scan_string s4 with
                                    | Some (t, rest) =>
                                        Some (utf8 (65536 + (cp - 55296) * 1024
                                                      + (lo - 56320))%N ++ t, rest)
                                    | None => None
                                    end
                                  else None
                              | None => None
                              end
                            else None
                        | _ => None
                        end
                      else if is_low_surrogate cp then None
                      else
                        match scan_string s3 with
                        | Some (t, rest) => Some (utf8 cp ++ t, rest)
                        | None => None
                        end
                  | None => None
                  end
              | _ => None
              end
            else None
        | EmptyString => None
        end
      else if Nat.ltb (nat_of_ascii c) 32 then None
      else
        match scan_string s' with
        | Some (t, rest) => Some (String c t, rest)
        | None => None
        end
  end.

(** One value, then the rest of the input.  [fuel] bounds the nesting depth
    and the number of members read; [loads] starts from the length of the
    input.  An object becomes a dict: of two members with the same name the
    later one gives the value. *)
Fixpoint scan_value (fuel : nat) (s : string) : option (pyval * string) :=
  match fuel with
  | O => None
  | S fuel' =>
      match skip_ws s with
      | String c s' =>
          if Ascii.eqb c dquote then
            match scan_string s' with
            | Some (t, rest) => Some (PyStr t, rest)
            | None => None
            end
          else if Ascii.eqb c "[" then
            match skip_ws s' with
            | String "]" rest => Some (PyList [], rest)
            | _ =>
                match scan_elements fuel' s' with
                | Some (xs, rest) => Some (PyList xs, rest)
                | None => None
                end
            end
          else if Ascii.eqb c "{" then
            match skip_ws s' with
            | String "}" rest => Some (PyDict [], rest)
            | _ =>
                match scan_members fuel' s' with
                | Some (items, rest) => Some (PyDict (dict_of_pairs items), rest)
                | None => None
                end
            end
          else None
      | EmptyString => None
      end
  end
with scan_elements (fuel : nat) (s : string) : option (list pyval * string) :=
  match fuel with
  | O => None
  | S fuel' =>
      match scan_value fuel' s with
      | Some (x, rest) =>
          match skip_ws rest with
          | String "," rest' =>
              match scan_elements fuel' rest' with
              | Some (xs, rest'') => Some (x :: xs, rest'')
              | None => None
              end
          | String "]" rest' => Some ([x], rest')
          | _ => None
          end
      | None => None
      end
  end
with scan_members (fuel : nat) (s : string)
  : option (list (string * pyval) * string) :=
  match fuel with
  | O => None
  | S fuel' =>
      match skip_ws s with
      | String c s' =>
          if Ascii.eqb c dquote then
            match scan_string s' with
            | Some (k, rest) =>
                match skip_ws rest with
                | String ":" rest' =>
                    match scan_value fuel' rest' with
                    | Some (x, rest'') =>
                        match skip_ws rest'' with
                        | String "," rest3 =>
                            match scan_members fuel' rest3 with
                            | Some (items, rest4) => Some ((k, x) :: items, rest4)
                            | None => None
                            end
                        | String "}" rest3 => Some ([(k, x)], rest3)
                        | _ => None
                        end
                    | None => None
                    end
                | _ => None
                end
            | None => None
            end
          else None
      | EmptyString => None
      end
  end.

(** Reading a JSON text made of strings, arrays and objects: one value
    surrounded by optional white space.  Numbers and the literals [true],
    [false] and [null] are outside the values modelled here and are not
    read. *)
Definition loads (s : string) : option pyval :=
  match scan_value (S (String.length s)) s with
  | Some (v, rest) =>
      match skip_ws rest with
      | EmptyString => Some v
      | _ => None
      end
  | None => None
  end.

End json.

(** ** Requests, responses and the effects a view may have *)

(** [django.http.HttpRequest], the parts a view can look at. *)
Record HttpRequest : Type := mkRequest {
  method : string;
  path_info : string;
  query_params : list (string * string);
  headers : list (string * string);
  body : string
}.

(** [rest_framework.response.Response(data, status=None, content_type=None)]
    as a view returns it, before rendering. *)
Record Response : Type := mkResponse {
  data : pyval;
  status : option Z;
  explicit_content_type : option string
}.

(** The rendered response that leaves the server. *)
Record HttpResponse : Type := mkHttpResponse {
  status_code : Z;
  content_type : string;
  content : string
}.

(** Everything outside the response that running code could change: the
    records written to loggers, the shared mutable store (database, cache,
    module globals) and the calls made to other services. *)
Record World : Type := mkWorld {
  log : list string;
  store : list (string * pyval);
  external_calls : list string
}.

(** The exceptions of the request cycle: REST framework's
    [MethodNotAllowed], [NotAcceptable], [NotAuthenticated] and
    [AuthenticationFailed] (one constructor, with the detail), any other
    [APIException] with its status code and detail, Django's [Http404] and
    [PermissionDenied], and everything else. *)
Inductive Exception : Type :=
| MethodNotAllowed (m : string)
| NotAcceptable
| AuthenticationError (detail : string)
| APIException (code : Z) (detail : pyval)
| Http404
| PermissionDenied
| Uncaught (what : string).

Inductive Result (A : Type) : Type :=
| Ok (a : A)
| Raised (e : Exception).
Arguments Ok {A} a.
Arguments Raised {A} e.

(** Python code as a state transformer that returns or raises. *)
Definition M (A : Type) : Type := World -> Result A * World.

Definition ret {A} (a : A) : M A := fun w => (Ok a, w).

Definition raise {A} (e : Exception) : M A := fun w => (Raised e, w).

(** Code that returns or raises without touching the state. *)
Definition lift {A} (r : Result A) : M A := fun w => (r, w).

Definition bind {A B} (c : M A) (k : A -> M B) : M B :=
  fun w =>
    match c w with
    | (Ok a, w') => k a w'
    | (Raised e, w') => (Raised e, w')
    end.

(** [try: c except Exception as exc: h(exc)]. *)
Definition try_except {A} (c : M A) (h : Exception -> M A) : M A :=
  fun w =>
    match c w with
    | (Ok a, w') => (Ok a, w')
    | (Raised e, w') => h e w'
    end.

Notation "x <- c ;; k" := (bind c (fun x => k))
  (at level 61, c at next level, right associativity).

Definition View : Type := HttpRequest -> M HttpResponse.

(** ** backend/api/views.py *)

(** [def welcome_message(request)], the function under the decorator. *)
Definition welcome_message (request : HttpRequest) : M Response :=
  ret (mkResponse (PyDict [("message", PyStr "Hello World!")]) None None).

(** The argument of the decorator, [@api_view(["GET"])]. *)
Definition welcome_message_methods : list string := ["GET"].

(** ** django.urls

    Routes are literal: a route that holds a converter such as [<int:id>] is
    outside the model ([literal_route] below says which routes are
    covered). *)

#[warnings="-register-all"] Inductive URLPattern : Type :=
| Endpoint (route : string) (callback : View) (name : string)
| Included (route : string) (url_patterns : list URLPattern).

(** [path(route, view, name=name)] for a route without converters: the
    pattern is an end point, the whole remaining path must equal [route]. *)
Definition path (route : string) (view : View) (name : string) : URLPattern :=
  Endpoint route view name.

(** [path(route, include(patterns))] for a route without converters:
    [route] must be a prefix, the included patterns see what follows it. *)
Definition include (route : string) (patterns : list URLPattern) : URLPattern :=
  Included route patterns.

(** A route in which no [<] occurs holds no converter: Django matches it
    character by character. *)
Fixpoint literal_route (route : string) : bool :=
  match route with
  | EmptyString => true
  | String c route' => if Ascii.eqb c "<" then false else literal_route route'
  end.

(** [URLResolver.resolve]: the patterns are tried in order, the first match
    wins; [None] stands for [Resolver404]. *)
Fixpoint resolve_pattern (p : URLPattern) (rest : string) : option (View * string) :=
  match p with
  | Endpoint route callback name =>
      if String.eqb rest route then Some (callback, name) else None
  | Included route url_patterns =>
      match pystr.strip_prefix route rest with
      | Some rest' =>
          (fix first_match (ps : list URLPattern) : option (View * string) :=
             match ps with
             | [] => None
             | q :: qs =>
                 match resolve_pattern q rest' with
                 | Some m => Some m
                 | None => first_match qs
                 end
             end) url_patterns
      | None => None
      end
  end.

(** ** The framework around the two files *)

(** What the framework does on its own depends on the project configuration
    and on library code that reads it, neither of which is part of the two
    files.  A site gives:
    - the page Django serves for an unresolved path and the one it serves
      for an uncaught exception;
    - the metadata document REST framework sends in reply to [OPTIONS];
    - [APIView.perform_content_negotiation]: the accepted media type for a
      request, or the exception negotiation raises ([NotAcceptable], or
      [Http404] for an unknown [format]);
    - the rest of [APIView.initial]: version, authentication, permission
      and throttle checks, which may raise and may use the state;
    - [APIView.get_authenticate_header];
    - the integer that the [indent] parameter of a media type holds, as
      [JSONRenderer.get_indent] reads it ([None] when the parameter is
      absent or is not a number). *)
Record Site : Type := mkSite {
  not_found_page : string;
  server_error_page : string;
  options_metadata : HttpRequest -> pyval;
  perform_content_negotiation : HttpRequest -> Result string;
  request_checks : HttpRequest -> M unit;
  authenticate_header : HttpRequest -> option string;
  indent_parameter : string -> option Z
}.

(** *** rest_framework: renderer, exceptions, api_view *)

(** [JSONRenderer.media_type]; its charset is [None], so the media type is
    the whole [Content-Type] header. *)
Definition JSONRenderer_media_type : string := "application/json".

(** The last step of [JSONRenderer.render]: the characters U+2028 and U+2029
    (bytes E2 80 A8 and E2 80 A9) are replaced by their six-character
    escapes, a backslash followed by u2028 or u2029. *)
Fixpoint escape_line_separators (s : string) : string :=
  match s with
  | EmptyString => ""
  | String a s1 =>
      match s1 with
      | String b (String c rest) =>
          if andb (Ascii.eqb a "226") (Ascii.eqb b "128") then
            if Ascii.eqb c "168"
            then String pystr.backslash "u2028" ++ escape_line_separators rest
            else if Ascii.eqb c "169"
            then String pystr.backslash "u2029" ++ escape_line_separators rest
            else String a (escape_line_separators s1)
          else String a (escape_line_separators s1)
      | _ => String a (escape_line_separators s1)
      end
  end.

(** [JSONRenderer.render(data, accepted_media_type)] once the indent is
    known: without an indent the compact separators (comma, colon), with an
    indent a comma and a colon followed by a space. *)
Definition JSONRenderer_render (indent : option nat) (data : pyval) : string :=
  escape_line_separators
    (json.dumps data indent
       (match indent with None => (",", ":") | Some _ => (",", ": ") end)).

(** [zero_as_none]. *)
Definition zero_as_none (n : Z) : option nat :=
  if n =? 0 then None else Some (Z.to_nat n).

(** [MethodNotAllowed.default_detail.format(method=method)]. *)
Definition method_not_allowed_detail (m : string) : string :=
  "Method " ++ String pystr.dquote (m ++ String pystr.dquote " not allowed.").

(** [rest_framework.views.exception_handler]: API exceptions, [Http404] and
    [PermissionDenied] become responses, anything else is left to the caller
    ([None]).  A detail that is a list or a dict is the response data as it
    is, any other detail is wrapped under the key "detail". *)
Definition exception_handler (exc : Exception) : option Response :=
  let detail_response (code : Z) (detail : string) :=
    Some (mkResponse (PyDict [("detail", PyStr detail)]) (Some code) None) in
  match exc with
  | MethodNotAllowed m => detail_response 405 (method_not_allowed_detail m)
  | NotAcceptable => detail_response 406 "Could not satisfy the request Accept header."
  | AuthenticationError detail => detail_response 401 detail
  | APIException code (PyStr detail) => detail_response code detail
  | APIException code detail => Some (mkResponse detail (Some code) None)
  | Http404 => detail_response 404 "Not found."
  | PermissionDenied =>
      detail_response 403 "You do not have permission to perform this action."
  | Uncaught _ => None
  end.

(** The three things [getattr(self, request.method.lower(),
    self.http_method_not_allowed)] can be on the class [api_view] builds. *)
Inductive Handler : Type :=
| DecoratedFunction
| AutomaticOptions
| MethodNotAllowedHandler.

(** [WrappedAPIView.http_method_names]:
    [[m.lower() for m in set(http_method_names) | {'options'}]]. *)
Definition view_http_method_names (http_method_names : list string) : list string :=
  map pystr.lower (http_method_names ++ ["options"]).

(** The handler choice of [APIView.dispatch].  [api_view] binds the decorated
    function to the lower-cased name of every listed method; [options] is
    inherited from [APIView]. *)
Definition select_handler (http_method_names : list string)
    (request : HttpRequest) : Handler :=
  let m := pystr.lower (method request) in
  if pystr.mem m (view_http_method_names http_method_names) then
    if pystr.mem m (map pystr.lower http_method_names) then DecoratedFunction
    else if String.eqb m "options" then AutomaticOptions
    else MethodNotAllowedHandler
  else MethodNotAllowedHandler.

Section Framework.

Variable site : Site.

(** [JSONRenderer.get_indent]: the [indent] parameter of the accepted media
    type, kept between 0 and 8, with 0 meaning none. *)
Definition get_indent (accepted_media_type : string) : option nat :=
  if String.eqb accepted_media_type "" then None
  else
    match indent_parameter site accepted_media_type with
    | Some i => zero_as_none (Z.max (Z.min i 8) 0)
    | None => None
    end.

(** Modelled from the spec: the renderer configuration lives in the project
    settings, which are not among the sources; the spec gives every response
    of the API the JSON content type and excludes other content negotiation,
    so the accepted renderer is [JSONRenderer].

    [Response.rendered_content] for it: the status defaults to 200, the
    content type to the renderer's media type, the content is the JSON
    encoding of [data], indented as the accepted media type asks. *)
Definition render (accepted_media_type : string) (response : Response)
    : HttpResponse :=
  {| status_code := match status response with Some s => s | None => 200 end;
     content_type := match explicit_content_type response with
                     | Some ct => ct
                     | None => JSONRenderer_media_type
                     end;
     content := JSONRenderer_render (get_indent accepted_media_type)
                                    (data response) |}.

(** [APIView.initial]: content negotiation first, then the version,
    authentication, permission and throttle checks.  It returns what it
    stores in [request.accepted_media_type]. *)
Definition initial (request : HttpRequest) : M string :=
  accepted <- lift (perform_content_negotiation site request) ;;
  _ <- request_checks site request ;;
  ret accepted.

(** [request.accepted_media_type] as [finalize_response] finds it: what
    negotiation stored, or, when negotiation raised, the media type of the
    first renderer. *)
Definition accepted_media_type (request : HttpRequest) : string :=
  match perform_content_negotiation site request with
  | Ok accepted => accepted
  | Raised _ => JSONRenderer_media_type
  end.

(** [APIView.finalize_response] followed by the rendering of the response. *)
Definition finalize_response (request : HttpRequest) (response : Response)
    : HttpResponse :=
  render (accepted_media_type request) response.

(** [APIView.handle_exception]: an authentication error keeps status 401
    when the site has an authenticate header and becomes 403 otherwise; an
    exception the handler does not know is raised again. *)
Definition handle_exception (request : HttpRequest) (exc : Exception)
    : M Response :=
  let exc' :=
    match exc with
    | AuthenticationError detail =>
        match authenticate_header site request with
        | Some _ => APIException 401 (PyStr detail)
        | None => APIException 403 (PyStr detail)
        end
    | _ => exc
    end in
  match exception_handler exc' with
  | Some response => ret response
  | None => raise exc
  end.

(** [APIView.options]. *)
Definition options (request : HttpRequest) : M Response :=
  ret (mkResponse (options_metadata site request) (Some 200) None).

(** [APIView.http_method_not_allowed]. *)
Definition http_method_not_allowed (request : HttpRequest) : M Response :=
  raise (MethodNotAllowed (method request)).

(** [APIView.dispatch] up to the response object: run [initial], choose the
    handler, call it, turn exceptions into responses. *)
Definition dispatch (http_method_names : list string)
    (func : HttpRequest -> M Response) (request : HttpRequest) : M Response :=
  try_except
    (_ <- initial request ;;
     match select_handler http_method_names request with
     | DecoratedFunction => func request
     | AutomaticOptions => options request
     | MethodNotAllowedHandler => http_method_not_allowed request
     end)
    (handle_exception request).

(** [@api_view(http_method_names)] applied to [func]: the view that the URL
    configuration registers. *)
Definition api_view (http_method_names : list string)
    (func : HttpRequest -> M Response) : View :=
  fun request =>
    response <- dispatch http_method_names func request ;;
    ret (finalize_response request response).

(** [views.welcome_message] as other modules see it: the decorated view. *)
Definition views_welcome_message : View :=
  api_view welcome_message_methods welcome_message.

(** ** backend/api/urls.py *)

Definition urlpatterns : list URLPattern :=
  [ path "welcome-message/" views_welcome_message "welcome-message" ].

(** *** django: the root resolver and the request cycle *)

(** Modelled from the spec: the project's root URL configuration is not among
    the sources; the spec serves the endpoint at [/welcome-message/] and
    nothing else, so the patterns of [backend/api/urls.py] are included at
    the empty prefix.  The root resolver itself consumes the leading slash. *)
Definition root_urlconf : URLPattern :=
  include "/" [ include "" urlpatterns ].

Definition resolve (p : string) : option (View * string) :=
  resolve_pattern root_urlconf p.

(** [http.client.responses[status]] for the statuses the framework itself
    produces. *)
Definition reason_phrase (code : Z) : string :=
  if code =? 200 then "OK"
  else if code =? 401 then "Unauthorized"
  else if code =? 403 then "Forbidden"
  else if code =? 404 then "Not Found"
  else if code =? 405 then "Method Not Allowed"
  else if code =? 406 then "Not Acceptable"
  else if code =? 429 then "Too Many Requests"
  else if code =? 500 then "Internal Server Error"
  else "Unknown Status Code".

(** [django.views.defaults.page_not_found]. *)
Definition page_not_found : HttpResponse :=
  mkHttpResponse 404 "text/html; charset=utf-8" (not_found_page site).

(** [django.views.defaults.server_error]. *)
Definition server_error : HttpResponse :=
  mkHttpResponse 500 "text/html; charset=utf-8" (server_error_page site).

(** [django.utils.log.log_response]: one record on the [django.request]
    logger. *)
Definition log_response (response : HttpResponse) (request : HttpRequest)
    : M unit :=
  fun w =>
    (Ok tt,
     mkWorld (log w ++ [reason_phrase (status_code response) ++ ": "
                          ++ path_info request])
             (store w) (external_calls w)).

(** [BaseHandler.get_response]: resolve the path, call the view, answer
    [Resolver404] and uncaught exceptions with the default pages, and log
    every response whose status is 400 or above. *)
Definition get_response (request : HttpRequest) : World -> HttpResponse * World :=
  fun w =>
    let '(response, w1) :=
      match resolve (path_info request) with
      | Some (callback, _) =>
          match callback request w with
          | (Ok response, w') => (response, w')
          | (Raised _, w') => (server_error, w')
          end
      | None => (page_not_found, w)
      end in
    if 400 <=? status_code response then
      (response, snd (log_response response request w1))
    else (response, w1).

(** Which handler, if any, the dispatch selects for a request: [None] when
    no pattern matches the path. *)
Definition routed_to (request : HttpRequest) : option Handler :=
  match resolve (path_info request) with
  | Some (_, name) =>
      if String.eqb name "welcome-message"
      then Some (select_handler welcome_message_methods request)
      else None
  | None => None
  end.

End Framework.

(** ** REST framework's default content negotiation, for the JSON renderer

    [DefaultContentNegotiation.select_renderer] with [JSONRenderer] as the
    only renderer, and the parsing of media types it rests on.  Parameters
    are read in their plain form [name=value]; quoted values with escapes
    and RFC 2231 extended parameters are not covered.  Media types of equal
    precedence are tried in the order of the header (the library keeps them
    in a set). *)

Module negotiation.
Import pystr.

(** [request.query_params.get(key)]: the last value given for [key]. *)
Fixpoint query_get (params : list (string * string)) (key : string)
  : option string :=
  match params with
  | [] => None
  | (k, v) :: rest =>
      match query_get rest key with
      | Some v' => Some v'
      | None => if String.eqb k key then Some v else None
      end
  end.

(** [request.META.get('HTTP_' + name)]: header names are compared without
    regard to case. *)
Fixpoint header_get (hs : list (string * string)) (name : string)
  : option string :=
  match hs with
  | [] => None
  | (k, v) :: rest =>
      if String.eqb (lower k) name then Some v else header_get rest name
  end.

(** [s[:-1]] when [s] ends with a double quote. *)
Fixpoint drop_closing_quote (s : string) : option string :=
  match s with
  | EmptyString => None
  | String c EmptyString => if Ascii.eqb c dquote then Some "" else None
  | String c s' =>
      match drop_closing_quote s' with
      | Some t => Some (String c t)
      | None => None
      end
  end.

(** One [name=value] parameter: the name lower-cased, both sides stripped,
    a pair of enclosing quotes removed.  A part without [=] is skipped. *)
Definition parse_parameter (part : string) : option (string * string) :=
  match partition "=" part with
  | (name, Some value) =>
      let value := strip value in
      Some (lower (strip name),
            match value with
            | String q inner =>
                if Ascii.eqb q dquote then
                  match drop_closing_quote inner with
                  | Some t => t
                  | None => value
                  end
                else value
            | EmptyString => value
            end)
  | (_, None) => None
  end.

(** [django.utils.http.parse_header_parameters]: the lower-cased main value
    and the dict of the parameters. *)
Definition parse_header_parameters (line : string)
  : string * list (string * string) :=
  match split ";" line with
  | key :: parts =>
      (lower (strip key),
       dict_of_pairs
         (flat_map (fun part => match parse_parameter part with
                                | Some kv => [kv]
                                | None => []
                                end) parts))
  | [] => ("", [])
  end.

(** [rest_framework.utils.mediatypes._MediaType]. *)
Record MediaType : Type := mkMediaType {
  main_type : string;
  sub_type : string;
  params : list (string * string)
}.

Definition media_type (s : string) : MediaType :=
  let '(full_type, params) := parse_header_parameters s in
  let '(main, sub) := partition "/" full_type in
  mkMediaType main (match sub with Some t => t | None => "" end) params.

Definition option_eqb (a b : option string) : bool :=
  match a, b with
  | Some x, Some y => String.eqb x y
  | None, None => true
  | _, _ => false
  end.

(** [_MediaType.match]: does [self] satisfy [other]? *)
Definition matches (self other : MediaType) : bool :=
  andb
    (forallb (fun kv =>
                orb (String.eqb (fst kv) "q")
                    (option_eqb (dict_get (params other) (fst kv))
                                (dict_get (params self) (fst kv))))
             (params self))
    (andb
       (orb (String.eqb (sub_type self) "*")
            (orb (String.eqb (sub_type other) "*")
                 (String.eqb (sub_type other) (sub_type self))))
       (orb (String.eqb (main_type self) "*")
            (orb (String.eqb (main_type other) "*")
                 (String.eqb (main_type other) (main_type self))))).

(** [_MediaType.precedence]. *)
Definition precedence (m : MediaType) : nat :=
  if String.eqb (main_type m) "*" then 0
  else if String.eqb (sub_type m) "*" then 1
  else
    match params m with
    | [] => 2
    | [(k, _)] => if String.eqb k "q" then 2 else 3
    | _ => 3
    end.

(** [order_by_precedence], flattened: the most specific media types first. *)
Definition order_by_precedence (accepts : list string) : list string :=
  flat_map
    (fun p => filter (fun t => Nat.eqb (precedence (media_type t)) p) accepts)
    [3; 2; 1; 0]%nat.

(** [DefaultContentNegotiation.select_renderer] for the renderer list
    [[JSONRenderer]]: the accepted media type, [Http404] for a [format]
    other than [json], [NotAcceptable] when no media type of the [Accept]
    header (default [*/*]) is satisfied. *)
Definition select_renderer (request : HttpRequest) : Result string :=
  let renderer_media_type := "application/json" in
  let known_format :=
    match query_get (query_params request) "format" with
    | Some "" | None => true
    | Some format => String.eqb format "json"
    end in
  if negb known_format then Raised Http404
  else
    let header :=
      match header_get (headers request) "accept" with
      | Some h => h
      | None => "*/*"
      end in
    let accepts := map strip (split "," header) in
    match find (fun t => matches (media_type renderer_media_type) (media_type t))
               (order_by_precedence accepts) with
    | Some t =>
        if Nat.ltb (precedence (media_type t))
                   (precedence (media_type renderer_media_type))
        then Ok (join ";"
                   (renderer_media_type
                    :: map (fun kv => fst kv ++ "=" ++ snd kv)
                         (params (media_type t))))
        else Ok t
    | None => Raised NotAcceptable
    end.

Definition is_digit (c : ascii) : bool :=
  let n := nat_of_ascii c in andb (Nat.leb 48 n) (Nat.leb n 57).

Fixpoint digits_value (acc : Z) (s : string) : option Z :=
  match s with
  | EmptyString => Some acc
  | String c s' =>
      if is_digit c
      then digits_value (10 * acc + Z.of_nat (nat_of_ascii c - 48)) s'
      else None
  end.

(** [int(s)] for a decimal numeral with an optional sign, surrounded by
    optional white space; [None] stands for [ValueError]. *)
Definition parse_int (s : string) : option Z :=
  match strip s with
  | String "-" (String c t) =>
      match digits_value 0 (String c t) with
      | Some z => Some (- z)
      | None => None
      end
  | String "+" (String c t) => digits_value 0 (String c t)
  | String c t => digits_value 0 (String c t)
  | EmptyString => None
  end.

(** [int(params['indent'])] of a media type; [None] when the parameter is
    absent or is not a number. *)
Definition indent_of (accepted_media_type : string) : option Z :=
  match dict_get (snd (parse_header_parameters accepted_media_type)) "indent" with
  | Some v => parse_int v
  | None => None
  end.

End negotiation.

(** ** Concrete inputs used by the examples *)

(** A site with the default content negotiation, no authentication classes,
    [AllowAny] and no throttles. *)
Definition example_site : Site :=
  mkSite "<h1>Not Found</h1>" "<h1>Server Error (500)</h1>"
         (fun _ => PyDict [("name", PyStr "Welcome Message")])
         negotiation.select_renderer
         (fun _ => ret tt)
         (fun _ => None)
         negotiation.indent_of.

Definition empty_world : World := mkWorld [] [] [].

Definition busy_world : World :=
  mkWorld ["Not Found: /favicon.ico"] [("visits", PyStr "12")] ["smtp"].

(** A bare request: no query parameters, no headers, no body. *)
Definition bare_request (m p : string) : HttpRequest := mkRequest m p [] [] "".

(** A request that carries an [Accept] header and nothing else. *)
Definition request_accepting (m p accept : string) : HttpRequest :=
  mkRequest m p [] [("Accept", accept)] "".

(** The payload of the endpoint. *)
Definition welcome_payload : pyval := PyDict [("message", PyStr "Hello World!")].

(** * Properties *)

(** ** Facts about the dispatch, shared by the theorems below *)

Lemma welcome_message_run (request : HttpRequest) (w : World) :
  welcome_message request w = (Ok (mkResponse welcome_payload None None), w).
Proof. reflexivity. Qed.

Lemma lower_GET (m : string) : m = "GET" -> pystr.lower m = "get".
Proof. intros ->. reflexivity. Qed.

Lemma lower_OPTIONS (m : string) : m = "OPTIONS" -> pystr.lower m = "options".
Proof. intros ->. reflexivity. Qed.

(** The handler choice for the decorator argument [["GET"]]. *)
Lemma select_handler_welcome (request : HttpRequest) :
  select_handler welcome_message_methods request =
  if String.eqb (pystr.lower (method request)) "get" then DecoratedFunction
  else if String.eqb (pystr.lower (method request)) "options" then AutomaticOptions
  else MethodNotAllowedHandler.
Proof.
  unfold select_handler, view_http_method_names, welcome_message_methods, pystr.mem.
  change (map pystr.lower (["GET"] ++ ["options"])) with ["get"; "options"].
  change (map pystr.lower ["GET"]) with ["get"].
  generalize (pystr.lower (method request)) as m. intros m.
  cbn [existsb].
  destruct (String.eqb m "get"), (String.eqb m "options"); reflexivity.
Qed.

Lemma select_handler_get (request : HttpRequest) :
  pystr.lower (method request) = "get" ->
  select_handler welcome_message_methods request = DecoratedFunction.
Proof. intros H. rewrite select_handler_welcome, H. reflexivity. Qed.

Lemma select_handler_options (request : HttpRequest) :
  pystr.lower (method request) = "options" ->
  select_handler welcome_message_methods request = AutomaticOptions.
Proof. intros H. rewrite select_handler_welcome, H. reflexivity. Qed.

Lemma select_handler_other (request : HttpRequest) :
  pystr.lower (method request) <> "get" ->
  pystr.lower (method request) <> "options" ->
  select_handler welcome_message_methods request = MethodNotAllowedHandler.
Proof.
  intros Hg Ho. rewrite select_handler_welcome.
  destruct (String.eqb_spec (pystr.lower (method request)) "get"); [contradiction|].
  destruct (String.eqb_spec (pystr.lower (method request)) "options");
    [contradiction|reflexivity].
Qed.

Lemma select_handler_not_get (request : HttpRequest) :
  pystr.lower (method request) <> "get" ->
  select_handler welcome_message_methods request <> DecoratedFunction.
Proof.
  intros Hg. rewrite select_handler_welcome.
  destruct (String.eqb_spec (pystr.lower (method request)) "get"); [contradiction|].
  destruct (String.eqb (pystr.lower (method request)) "options"); discriminate.
Qed.

(** The only path the URL configuration resolves. *)
Lemma resolve_eq (site : Site) (p : string) :
  resolve site p =
  if String.eqb p "/welcome-message/"
  then Some (views_welcome_message site, "welcome-message")
  else None.
Proof.
  unfold resolve, root_urlconf, include, urlpatterns, path.
  destruct p as [|c p]; [reflexivity|].
  cbn [resolve_pattern pystr.strip_prefix].
  change (String.eqb (String c p) "/welcome-message/")
    with (if Ascii.eqb c "/" then String.eqb p "welcome-message/" else false).
  rewrite (Ascii.eqb_sym "/" c).
  destruct (Ascii.eqb c "/"); [|reflexivity].
  destruct (String.eqb p "welcome-message/"); reflexivity.
Qed.

Lemma resolve_other (site : Site) (p : string) :
  p <> "/welcome-message/" -> resolve site p = None.
Proof.
  intros H. rewrite resolve_eq.
  destruct (String.eqb_spec p "/welcome-message/"); [contradiction|reflexivity].
Qed.

Lemma get_response_unresolved (site : Site) (request : HttpRequest) (w : World) :
  resolve site (path_info request) = None ->
  fst (get_response site request w) = page_not_found site.
Proof. intros H. unfold get_response. rewrite H. reflexivity. Qed.

(** What a passing [initial] says about its two steps. *)
Lemma initial_ok (site : Site) (request : HttpRequest) (w w1 : World)
    (accepted : string) :
  initial site request w = (Ok accepted, w1) ->
  perform_content_negotiation site request = Ok accepted /\
  request_checks site request w = (Ok tt, w1).
Proof.
  unfold initial, bind, lift, ret.
  destruct (perform_content_negotiation site request) as [a|e]; [|discriminate].
  destruct (request_checks site request w) as [[[]|e] w']; [|discriminate].
  intros H. injection H as -> ->. split; reflexivity.
Qed.

Lemma initial_accepted (site : Site) (request : HttpRequest) (w w1 : World)
    (accepted : string) :
  initial site request w = (Ok accepted, w1) ->
  accepted_media_type site request = accepted.
Proof.
  intros H. apply initial_ok in H as [H _].
  unfold accepted_media_type. now rewrite H.
Qed.

(** The decorated view on a request that passes [initial]: the chosen
    handler runs in the state [initial] leaves, its exceptions are handled
    and the response is rendered for the accepted media type. *)
Lemma api_view_after_initial (site : Site) (names : list string)
    (func : HttpRequest -> M Response) (request : HttpRequest) (w w1 : World)
    (accepted : string) :
  initial site request w = (Ok accepted, w1) ->
  api_view site names func request w =
  (response <- try_except
                 (match select_handler names request with
                  | DecoratedFunction => func request
                  | AutomaticOptions => options site request
                  | MethodNotAllowedHandler => http_method_not_allowed request
                  end)
                 (handle_exception site request) ;;
   ret (render site accepted response)) w1.
Proof.
  intros H. pose proof (initial_accepted _ _ _ _ _ H) as Ha.
  unfold api_view, dispatch, finalize_response, bind, try_except.
  rewrite H, Ha. reflexivity.
Qed.

(** The decorated view when another handler than the function is chosen:
    the function plays no part. *)
Lemma api_view_skips_function (site : Site) (names : list string)
    (func func' : HttpRequest -> M Response) (request : HttpRequest) :
  select_handler names request <> DecoratedFunction ->
  api_view site names func request = api_view site names func' request.
Proof.
  intros Hs. unfold api_view, dispatch.
  destruct (select_handler names request); [contradiction| |]; reflexivity.
Qed.

Lemma get_response_function (site : Site) (request : HttpRequest) (w w1 : World)
    (accepted : string) :
  path_info request = "/welcome-message/" ->
  pystr.lower (method request) = "get" ->
  initial site request w = (Ok accepted, w1) ->
  get_response site request w
  = (render site accepted (mkResponse welcome_payload None None), w1).
Proof.
  intros Hp Hm Hi. unfold get_response. rewrite resolve_eq, Hp.
  cbn [String.eqb Ascii.eqb Bool.eqb]. unfold views_welcome_message.
  rewrite (api_view_after_initial _ _ _ _ _ _ _ Hi), (select_handler_get _ Hm).
  reflexivity.
Qed.

Lemma get_response_options (site : Site) (request : HttpRequest) (w w1 : World)
    (accepted : string) :
  path_info request = "/welcome-message/" ->
  pystr.lower (method request) = "options" ->
  initial site request w = (Ok accepted, w1) ->
  get_response site request w
  = (render site accepted
       (mkResponse (options_metadata site request) (Some 200) None), w1).
Proof.
  intros Hp Hm Hi. unfold get_response. rewrite resolve_eq, Hp.
  cbn [String.eqb Ascii.eqb Bool.eqb]. unfold views_welcome_message.
  rewrite (api_view_after_initial _ _ _ _ _ _ _ Hi), (select_handler_options _ Hm).
  reflexivity.
Qed.

Lemma get_response_not_allowed (site : Site) (request : HttpRequest) (w w1 : World)
    (accepted : string) :
  path_info request = "/welcome-message/" ->
  pystr.lower (method request) <> "get" ->
  pystr.lower (method request) <> "options" ->
  initial site request w = (Ok accepted, w1) ->
  fst (get_response site request w)
  = render site accepted
      (mkResponse
         (PyDict [("detail", PyStr (method_not_allowed_detail (method request)))])
         (Some 405) None).
Proof.
  intros Hp Hg Ho Hi. unfold get_response. rewrite resolve_eq, Hp.
  cbn [String.eqb Ascii.eqb Bool.eqb]. unfold views_welcome_message.
  rewrite (api_view_after_initial _ _ _ _ _ _ _ Hi), (select_handler_other _ Hg Ho).
  reflexivity.
Qed.

(** The indent the renderer uses is none or between 1 and 8. *)
Lemma get_indent_range (site : Site) (accepted : string) :
  get_indent site accepted = None \/
  exists n : nat, get_indent site accepted = Some n /\ (1 <= n <= 8)%nat.
Proof.
  unfold get_indent. destruct (String.eqb accepted ""); [now left|].
  destruct (indent_parameter site accepted) as [i|]; [|now left].
  unfold zero_as_none.
  destruct (Z.eqb_spec (Z.max (Z.min i 8) 0) 0); [now left|].
  right. eexists. split; [reflexivity|]. lia.
Qed.

(** The payload decodes from its rendering, whatever the indent. *)
Lemma welcome_payload_decodes (site : Site) (accepted : string) :
  json.loads (JSONRenderer_render (get_indent site accepted) welcome_payload)
  = Some welcome_payload.
Proof.
  destruct (get_indent_range site accepted) as [->|(n & -> & Hn)]; [reflexivity|].
  do 9 (destruct n as [|n]; [try lia; reflexivity|]). lia.
Qed.

(** ** The endpoint *)

(** C1: a GET request to /welcome-message/ that is routed to the function
    [welcome_message], that is, one that passes the framework's checks
    ([initial]) before the handler is chosen, gets the function's response:
    status 200 and a body that, decoded as JSON, is the object with the
    single key "message" and the value "Hello World!". *)
Theorem welcome_message_get_200 (site : Site) (request : HttpRequest)
    (w w1 : World) (accepted : string) :
  method request = "GET" ->
  path_info request = "/welcome-message/" ->
  initial site request w = (Ok accepted, w1) ->
  fst (get_response site request w)
  = render site accepted (mkResponse welcome_payload None None) /\
  status_code (fst (get_response site request w)) = 200 /\
  json.loads (content (fst (get_response site request w)))
  = Some (PyDict [("message", PyStr "Hello World!")]).
Proof.
  intros Hm Hp Hi.
  rewrite (get_response_function site request w w1 accepted Hp (lower_GET _ Hm) Hi).
  split; [reflexivity|]. split; [reflexivity|].
  apply welcome_payload_decodes.
Qed.

Lemma welcome_message_get_200_witness :
  status_code
    (fst (get_response example_site
            (mkRequest "GET" "/welcome-message/" [("lang", "en")]
                       [("Accept", "application/json; indent=2")] "")
            busy_world)) = 200 /\
  json.loads
    (content
       (fst (get_response example_site
               (mkRequest "GET" "/welcome-message/" [("lang", "en")]
                          [("Accept", "application/json; indent=2")] "")
               busy_world)))
  = Some (PyDict [("message", PyStr "Hello World!")]).
Proof.
  apply (welcome_message_get_200 example_site
           (mkRequest "GET" "/welcome-message/" [("lang", "en")]
                      [("Accept", "application/json; indent=2")] "")
           busy_world busy_world "application/json; indent=2"); reflexivity.
Defined.

(** C2, as stated, fails in two ways: an OPTIONS request to
    /welcome-message/ is not a GET request, and it is answered with status
    200, not 405; and a POST request whose Accept header no renderer
    satisfies is refused by content negotiation with status 406 before the
    method is looked at. *)
Lemma options_request_is_not_405 :
  path_info (bare_request "OPTIONS" "/welcome-message/") = "/welcome-message/" /\
  method (bare_request "OPTIONS" "/welcome-message/") <> "GET" /\
  status_code
    (fst (get_response example_site
            (bare_request "OPTIONS" "/welcome-message/") empty_world)) = 200 /\
  status_code
    (fst (get_response example_site
            (bare_request "OPTIONS" "/welcome-message/") empty_world)) <> 405 /\
  method (request_accepting "POST" "/welcome-message/" "application/xml") <> "GET" /\
  status_code
    (fst (get_response example_site
            (request_accepting "POST" "/welcome-message/" "application/xml")
            empty_world)) = 406.
Proof.
  split; [reflexivity|]. split; [discriminate|]. split; [reflexivity|].
  split; [discriminate|]. split; [discriminate|reflexivity].
Qed.

(** C2, amended: every request to /welcome-message/ that passes the
    framework's checks ([initial]) and whose method is neither GET nor
    OPTIONS (the framework compares method names in lower case) is answered
    with status 405 and the framework's default body, the JSON object whose
    "detail" says that the method is not allowed. *)
Theorem other_methods_405 (site : Site) (request : HttpRequest) (w w1 : World)
    (accepted : string) :
  path_info request = "/welcome-message/" ->
  pystr.lower (method request) <> "get" ->
  pystr.lower (method request) <> "options" ->
  initial site request w = (Ok accepted, w1) ->
  status_code (fst (get_response site request w)) = 405 /\
  content_type (fst (get_response site request w)) = "application/json" /\
  content (fst (get_response site request w))
  = JSONRenderer_render (get_indent site accepted)
      (PyDict [("detail", PyStr (method_not_allowed_detail (method request)))]).
Proof.
  intros Hp Hg Ho Hi.
  rewrite (get_response_not_allowed site request w w1 accepted Hp Hg Ho Hi).
  split; [reflexivity | split; reflexivity].
Qed.

Lemma other_methods_405_witness :
  status_code
    (fst (get_response example_site
            (bare_request "DELETE" "/welcome-message/") empty_world)) = 405 /\
  status_code
    (fst (get_response example_site
            (mkRequest "POST" "/welcome-message/" [] [] "{}") empty_world)) = 405.
Proof.
  split.
  - apply (other_methods_405 example_site
             (bare_request "DELETE" "/welcome-message/")
             empty_world empty_world "application/json");
      [reflexivity | discriminate | discriminate | reflexivity].
  - apply (other_methods_405 example_site
             (mkRequest "POST" "/welcome-message/" [] [] "{}")
             empty_world empty_world "application/json");
      [reflexivity | discriminate | discriminate | reflexivity].
Defined.

(** C3: a request whose path is not the registered one resolves to no view,
    so no handler runs; the response is Django's default "not found" page
    with status 404. *)
Theorem unknown_path_404 (site : Site) (request : HttpRequest) (w : World) :
  path_info request <> "/welcome-message/" ->
  resolve site (path_info request) = None /\
  routed_to site request = None /\
  fst (get_response site request w) = page_not_found site /\
  status_code (fst (get_response site request w)) = 404.
Proof.
  intros Hp.
  pose proof (resolve_other site _ Hp) as Hr.
  rewrite (get_response_unresolved site request w Hr).
  split; [exact Hr|]. split; [|split; reflexivity].
  unfold routed_to. now rewrite Hr.
Qed.

Lemma unknown_path_404_witness :
  status_code
    (fst (get_response example_site (bare_request "GET" "/unknown-path/") empty_world))
  = 404.
Proof.
  apply (unknown_path_404 example_site (bare_request "GET" "/unknown-path/") empty_world).
  discriminate.
Defined.

(** C4, as stated, fails: two GET requests that both reach the function get
    different bytes when one of them asks for an indented rendering in its
    Accept header. *)
Lemma indent_changes_the_body :
  initial example_site (bare_request "GET" "/welcome-message/") empty_world
  = (Ok "application/json", empty_world) /\
  initial example_site
    (request_accepting "GET" "/welcome-message/" "application/json; indent=4")
    empty_world
  = (Ok "application/json; indent=4", empty_world) /\
  content
    (fst (get_response example_site
            (bare_request "GET" "/welcome-message/") empty_world))
  = JSONRenderer_render None welcome_payload /\
  content
    (fst (get_response example_site
            (request_accepting "GET" "/welcome-message/" "application/json; indent=4")
            empty_world))
  = JSONRenderer_render (Some 4%nat) welcome_payload /\
  content
    (fst (get_response example_site
            (bare_request "GET" "/welcome-message/") empty_world))
  <> content
       (fst (get_response example_site
               (request_accepting "GET" "/welcome-message/"
                                  "application/json; indent=4")
               empty_world)).
Proof.
  split; [reflexivity|]. split; [reflexivity|]. split; [reflexivity|].
  split; [reflexivity|discriminate].
Qed.

(** C4, amended: the function's result does not depend on the request.  Any
    two requests that reach it, whatever their query parameters, headers and
    bodies and whatever the state they run in, get the same response object
    and the same status, and both bodies decode to the same JSON value.  The
    bodies are byte-identical whenever the two requests are rendered with
    the same indent, and so for the same request sent again. *)
Theorem handler_output_independent (site : Site) (r1 r2 : HttpRequest)
    (w1 w2 w1' w2' : World) (accepted1 accepted2 : string) :
  method r1 = "GET" -> path_info r1 = "/welcome-message/" ->
  method r2 = "GET" -> path_info r2 = "/welcome-message/" ->
  initial site r1 w1 = (Ok accepted1, w1') ->
  initial site r2 w2 = (Ok accepted2, w2') ->
  fst (welcome_message r1 w1') = fst (welcome_message r2 w2') /\
  status_code (fst (get_response site r1 w1))
  = status_code (fst (get_response site r2 w2)) /\
  json.loads (content (fst (get_response site r1 w1)))
  = json.loads (content (fst (get_response site r2 w2))) /\
  (get_indent site accepted1 = get_indent site accepted2 ->
   content (fst (get_response site r1 w1)) = content (fst (get_response site r2 w2))) /\
  (r1 = r2 ->
   content (fst (get_response site r1 w1)) = content (fst (get_response site r2 w2))).
Proof.
  intros Hm1 Hp1 Hm2 Hp2 Hi1 Hi2.
  rewrite (get_response_function site r1 w1 w1' accepted1 Hp1 (lower_GET _ Hm1) Hi1).
  rewrite (get_response_function site r2 w2 w2' accepted2 Hp2 (lower_GET _ Hm2) Hi2).
  split; [reflexivity|]. split; [reflexivity|]. cbn [fst content render].
  split; [now rewrite !welcome_payload_decodes|].
  split; [now intros ->|].
  intros ->.
  apply initial_ok in Hi1 as [Hn1 _]. apply initial_ok in Hi2 as [Hn2 _].
  rewrite Hn1 in Hn2. now injection Hn2 as ->.
Qed.

Lemma handler_output_independent_witness :
  json.loads
    (content
       (fst (get_response example_site
               (mkRequest "GET" "/welcome-message/" [("format", "json")]
                          [("Accept", "*/*"); ("X-Trace", "1")] "")
               empty_world)))
  = json.loads
      (content
         (fst (get_response example_site
                 (mkRequest "GET" "/welcome-message/" []
                            [("Cookie", "a=b"); ("Accept", "application/json; indent=4")]
                            "ignored")
                 busy_world))).
Proof.
  apply (handler_output_independent example_site
           (mkRequest "GET" "/welcome-message/" [("format", "json")]
                      [("Accept", "*/*"); ("X-Trace", "1")] "")
           (mkRequest "GET" "/welcome-message/" []
                      [("Cookie", "a=b"); ("Accept", "application/json; indent=4")]
                      "ignored")
           empty_world busy_world empty_world busy_world
           "application/json" "application/json; indent=4"); reflexivity.
Defined.

(** C5: the GET-only constraint is applied during dispatch, before the
    function is called, and not by the function.  For a request that passes
    the framework's checks: when the method is GET the decorated view runs
    the function under the decorator, whatever that function is, on the
    request and answers with its rendered result; when the method is not GET
    the decorated view answers the same whatever function is under the
    decorator, so the function is not called, and unless the method is
    OPTIONS the answer is the 405 response.  The function itself places no
    condition on the method: it returns its response for every request. *)
Theorem method_gate_in_dispatch (site : Site) (request : HttpRequest) (w : World) :
  (forall (func : HttpRequest -> M Response) (accepted : string) (w1 : World),
     pystr.lower (method request) = "get" ->
     initial site request w = (Ok accepted, w1) ->
     api_view site welcome_message_methods func request w
     = (response <- try_except (func request) (handle_exception site request) ;;
        ret (render site accepted response)) w1) /\
  (forall func func' : HttpRequest -> M Response,
     pystr.lower (method request) <> "get" ->
     api_view site welcome_message_methods func request w
     = api_view site welcome_message_methods func' request w) /\
  (forall (func : HttpRequest -> M Response) (accepted : string) (w1 : World),
     pystr.lower (method request) <> "get" ->
     pystr.lower (method request) <> "options" ->
     initial site request w = (Ok accepted, w1) ->
     api_view site welcome_message_methods func request w
     = (Ok (render site accepted
              (mkResponse
                 (PyDict [("detail",
                           PyStr (method_not_allowed_detail (method request)))])
                 (Some 405) None)), w1)) /\
  fst (welcome_message request w) = Ok (mkResponse welcome_payload None None).
Proof.
  split; [|split; [|split; [|reflexivity]]].
  - intros func accepted w1 Hm Hi.
    rewrite (api_view_after_initial _ _ _ _ _ _ _ Hi), (select_handler_get _ Hm).
    reflexivity.
  - intros func func' Hm.
    now rewrite (api_view_skips_function site _ func func' request
                   (select_handler_not_get _ Hm)).
  - intros func accepted w1 Hg Ho Hi.
    rewrite (api_view_after_initial _ _ _ _ _ _ _ Hi), (select_handler_other _ Hg Ho).
    reflexivity.
Qed.

Lemma method_gate_in_dispatch_witness :
  api_view example_site welcome_message_methods
    (fun _ => raise (Uncaught "RuntimeError"))
    (bare_request "POST" "/welcome-message/") empty_world
  = views_welcome_message example_site
      (bare_request "POST" "/welcome-message/") empty_world.
Proof.
  apply (proj1 (proj2 (method_gate_in_dispatch example_site
                         (bare_request "POST" "/welcome-message/") empty_world))).
  discriminate.
Defined.

(** C6: the trailing slash is part of the route.  The path /welcome-message
    resolves to nothing and reaches no handler, whatever the method; the path
    /welcome-message/ resolves to the registered view and a GET request to it
    reaches the function. *)
Theorem trailing_slash_significant (site : Site) (m : string)
    (q h : list (string * string)) (b : string) :
  resolve site "/welcome-message" = None /\
  routed_to site (mkRequest m "/welcome-message" q h b) = None /\
  resolve site "/welcome-message/"
  = Some (views_welcome_message site, "welcome-message") /\
  routed_to site (mkRequest "GET" "/welcome-message/" q h b) = Some DecoratedFunction.
Proof.
  split; [reflexivity|]. split; [reflexivity|]. split; reflexivity.
Qed.

(** No response that [exception_handler] builds sets a content type. *)
Lemma exception_handler_content_type (exc : Exception) (response : Response) :
  exception_handler exc = Some response ->
  explicit_content_type response = None.
Proof.
  destruct exc as [m| |d|code [s|xs|items]| | |what]; cbn;
    intros H; try discriminate; injection H as <-; reflexivity.
Qed.

(** Every response the decorated view returns carries the renderer's media
    type as its content type. *)
Lemma view_content_type (site : Site) (request : HttpRequest) (w w1 : World)
    (http : HttpResponse) :
  views_welcome_message site request w = (Ok http, w1) ->
  content_type http = JSONRenderer_media_type.
Proof.
  unfold views_welcome_message, api_view, bind, ret, finalize_response.
  destruct (dispatch site welcome_message_methods welcome_message request w)
    as [[response|e] w'] eqn:Hd; [|discriminate].
  intros H. injection H as <- <-.
  assert (Hc : explicit_content_type response = None);
    [|unfold render; cbn; now rewrite Hc].
  revert Hd. unfold dispatch, try_except, bind.
  assert (Hh : forall e w2,
             handle_exception site request e w2 = (Ok response, w') ->
             explicit_content_type response = None).
  { intros e w2. unfold handle_exception.
    match goal with
    | |- context [exception_handler ?x] =>
        destruct (exception_handler x) as [r|] eqn:He
    end; [|discriminate].
    intros H. injection H as <- _. exact (exception_handler_content_type _ _ He). }
  destruct (initial site request w) as [[a|e] w2]; [|apply Hh].
  destruct (select_handler welcome_message_methods request);
    unfold welcome_message, options, http_method_not_allowed, ret, raise;
    cbv beta iota.
  - intros H. injection H as <- _. reflexivity.
  - intros H. injection H as <- _. reflexivity.
  - apply Hh.
Qed.

(** C7: a response to GET /welcome-message/ with status 200 carries the
    Content-Type application/json. *)
Theorem success_content_type_json (site : Site) (request : HttpRequest) (w : World) :
  method request = "GET" ->
  path_info request = "/welcome-message/" ->
  status_code (fst (get_response site request w)) = 200 ->
  content_type (fst (get_response site request w)) = "application/json".
Proof.
  intros Hm Hp. unfold get_response. rewrite resolve_eq, Hp.
  cbn [String.eqb Ascii.eqb Bool.eqb].
  destruct (views_welcome_message site request w) as [[http|e] w1] eqn:Hv.
  - pose proof (view_content_type _ _ _ _ _ Hv) as Hc.
    destruct (400 <=? status_code http); intros _; exact Hc.
  - cbn. discriminate.
Qed.

Lemma success_content_type_json_witness :
  content_type
    (fst (get_response example_site (bare_request "GET" "/welcome-message/") empty_world))
  = "application/json".
Proof.
  apply (success_content_type_json example_site
           (bare_request "GET" "/welcome-message/") empty_world); reflexivity.
Defined.

(** C8: the function cannot fail.  For every request and every state it
    returns a response; it never raises. *)
Theorem welcome_message_cannot_fail (request : HttpRequest) (w : World) :
  (exists response : Response, fst (welcome_message request w) = Ok response) /\
  (forall e : Exception, fst (welcome_message request w) <> Raised e).
Proof.
  rewrite welcome_message_run. split.
  - eexists. reflexivity.
  - intros e. discriminate.
Qed.

(** C9: calling the function changes nothing and reads nothing.  The state
    after the call (log records, shared store, external calls) is the state
    before it, and the result is the same in every state. *)
Theorem welcome_message_frame (request : HttpRequest) (w : World) :
  snd (welcome_message request w) = w /\
  log (snd (welcome_message request w)) = log w /\
  store (snd (welcome_message request w)) = store w /\
  external_calls (snd (welcome_message request w)) = external_calls w /\
  (forall w' : World,
     fst (welcome_message request w') = fst (welcome_message request w)).
Proof.
  rewrite welcome_message_run. repeat (split; [reflexivity|]). intros w'. reflexivity.
Qed.

(** C10, as stated, fails: an OPTIONS request to /welcome-message/ whose
    Accept header no renderer satisfies is refused by content negotiation
    with status 406, not answered with 200. *)
Lemma options_request_not_acceptable :
  method (request_accepting "OPTIONS" "/welcome-message/" "application/xml")
  = "OPTIONS" /\
  path_info (request_accepting "OPTIONS" "/welcome-message/" "application/xml")
  = "/welcome-message/" /\
  perform_content_negotiation example_site
    (request_accepting "OPTIONS" "/welcome-message/" "application/xml")
  = Raised NotAcceptable /\
  status_code
    (fst (get_response example_site
            (request_accepting "OPTIONS" "/welcome-message/" "application/xml")
            empty_world)) = 406.
Proof.
  split; [reflexivity|]. split; [reflexivity|]. split; reflexivity.
Qed.

(** C10, amended: an OPTIONS request to /welcome-message/ that passes the
    framework's checks ([initial]) is answered with status 200 by the
    automatic OPTIONS handler, with the metadata document as its body, and
    not with 405, although OPTIONS is not among the methods given to the
    decorator. *)
Theorem options_answered_200 (site : Site) (request : HttpRequest) (w w1 : World)
    (accepted : string) :
  method request = "OPTIONS" ->
  path_info request = "/welcome-message/" ->
  initial site request w = (Ok accepted, w1) ->
  pystr.mem "OPTIONS" welcome_message_methods = false /\
  status_code (fst (get_response site request w)) = 200 /\
  content (fst (get_response site request w))
  = JSONRenderer_render (get_indent site accepted) (options_metadata site request).
Proof.
  intros Hm Hp Hi. split; [reflexivity|].
  rewrite (get_response_options site request w w1 accepted Hp (lower_OPTIONS _ Hm) Hi).
  split; reflexivity.
Qed.

Lemma options_answered_200_witness :
  status_code
    (fst (get_response example_site
            (bare_request "OPTIONS" "/welcome-message/") empty_world)) = 200.
Proof.
  apply (options_answered_200 example_site
           (bare_request "OPTIONS" "/welcome-message/")
           empty_world empty_world "application/json"); reflexivity.
Defined.

(** ** Mounting the URL configuration under a prefix *)

Lemma strip_prefix_append (a r : string) : pystr.strip_prefix a (a ++ r) = Some r.
Proof.
  induction a as [|c a IH]; [reflexivity|].
  cbn. now rewrite Ascii.eqb_refl.
Qed.

Lemma strip_prefix_some (a s r : string) :
  pystr.strip_prefix a s = Some r -> s = a ++ r.
Proof.
  revert s. induction a as [|c a IH]; intros s H.
  - cbn in H. now injection H as ->.
  - destruct s as [|d s]; [discriminate|]. cbn in H.
    destruct (Ascii.eqb_spec c d) as [->|]; [|discriminate].
    cbn. now rewrite (IH s H).
Qed.

Lemma append_inv_head (a x y : string) : a ++ x = a ++ y -> x = y.
Proof.
  induction a as [|c a IH]; cbn; intros H; [exact H|].
  injection H as H. now apply IH.
Qed.

(** X4: wherever the project mounts [backend/api/urls.py] under a literal
    prefix (one without converters), the endpoint is served at the mount
    prefix followed by welcome-message/ and at no other path: with the
    patterns included under [prefix], a path resolves, and then to the
    decorated view under the name welcome-message, exactly when it is /
    followed by [prefix] and welcome-message/. *)
Theorem urlpatterns_mounted (site : Site) (prefix p : string) :
  literal_route prefix = true ->
  resolve_pattern (include "/" [include prefix (urlpatterns site)]) p
  = if String.eqb p ("/" ++ prefix ++ "welcome-message/")
    then Some (views_welcome_message site, "welcome-message")
    else None.
Proof.
  intros _.
  unfold include, urlpatterns, path. cbn [resolve_pattern].
  destruct (pystr.strip_prefix "/" p) as [s1|] eqn:E1.
  - apply strip_prefix_some in E1. subst p.
    destruct (pystr.strip_prefix prefix s1) as [s2|] eqn:E2.
    + apply strip_prefix_some in E2. subst s1.
      destruct (String.eqb_spec s2 "welcome-message/") as [->|Hn].
      * now rewrite String.eqb_refl.
      * destruct (String.eqb_spec ("/" ++ prefix ++ s2)
                                  ("/" ++ prefix ++ "welcome-message/")) as [He|];
          [|reflexivity].
        apply append_inv_head, append_inv_head in He. contradiction.
    + destruct (String.eqb_spec ("/" ++ s1) ("/" ++ prefix ++ "welcome-message/"))
        as [He|]; [|reflexivity].
      apply append_inv_head in He. subst s1.
      rewrite strip_prefix_append in E2. discriminate.
  - destruct (String.eqb_spec p ("/" ++ prefix ++ "welcome-message/")) as [->|];
      [|reflexivity].
    rewrite strip_prefix_append in E1. discriminate.
Qed.

Lemma urlpatterns_mounted_witness :
  resolve_pattern (include "/" [include "api/" (urlpatterns example_site)])
                  "/api/welcome-message/"
  = Some (views_welcome_message example_site, "welcome-message") /\
  resolve_pattern (include "/" [include "api/" (urlpatterns example_site)])
                  "/welcome-message/"
  = None.
Proof.
  split.
  - apply (urlpatterns_mounted example_site "api/" "/api/welcome-message/").
    reflexivity.
  - apply (urlpatterns_mounted example_site "api/" "/welcome-message/").
    reflexivity.
Defined.
